(** * Fleet enrollment command ([x-pack/agent/pkg/fleetapi/enroll_cmd.go])

    A shallow embedding of the enrollment type codec, of the request and
    response validation and of [EnrollCmd.Execute], together with the
    properties the specification states about them.

    Go strings and byte slices are sequences of bytes; both are modelled by
    [string], whose characters are the 256 values of [ascii].  The conversion
    [string(b)] is therefore the identity. *)

From Stdlib Require Import Strings.String Strings.Ascii ZArith.
From stdpp Require Import base option list strings gmap fin_maps.

Local Open Scope string_scope.

(** ** Errors *)

(** The Go [error] values this file builds.  A Go [error] is nilable, which
    is rendered by [option error]; [None] is [nil]. *)
#[local] Unset Elimination Schemes.
Inductive error : Type :=
| ErrorString (msg : string)
    (* errors.New(msg), fmt.Errorf(...) after formatting *)
| WithMessage (cause : error) (msg : string)
    (* errors.Wrap(cause, msg) *)
| MultiError (errs : list error)
    (* *multierror.Error{Errors: errs} *)
| MarshalerError (cause : error)
    (* *json.MarshalerError, the wrapper encoding/json puts around the error
       of a MarshalJSON method *)
| ForeignError (descr : string).
    (* an error made by a collaborator (transport, decoder, extract) *)
#[local] Set Elimination Schemes.

Module errors.
Definition New (msg : string) : error := ErrorString msg.
Definition Wrap (cause : error) (msg : string) : error :=
  WithMessage cause msg.
End errors.

Module multierror.
(** [go-multierror]'s [Append], on errors that are not nil: an [*Error]
    among the appended errors is flattened into the result. *)
Definition flatten (errs : list error) : list error :=
  List.concat
    (List.map (fun e => match e with MultiError es => es | _ => [e] end)
              errs).

Definition Append (err : option error) (errs : list error) : error :=
  match err with
  | Some (MultiError es) => MultiError (es ++ flatten errs)
  | Some e => MultiError (flatten (e :: errs))
  | None => MultiError (flatten errs)
  end.
End multierror.

(** ** The enrollment type and its wire encoding *)

Definition bytes : Type := string.

(** [type EnrollType string] *)
Definition EnrollType : Type := string.

Definition PermanentEnroll : EnrollType := "PERMANENT".

Definition mapEnrollType : gmap string EnrollType :=
  {[ "PERMANENT" := PermanentEnroll ]}.

(** [init] fills [reverseMapEnrollType] by ranging over [mapEnrollType]. *)
Definition init (m : gmap string EnrollType) : gmap EnrollType string :=
  map_fold (fun k v acc => <[ v := k ]> acc) ∅ m.

Definition reverseMapEnrollType : gmap EnrollType string :=
  init mapEnrollType.

(** *** [encoding/json] on strings

    [json.Marshal] of a Go string never fails.  It writes the string between
    double quotes, with HTML escaping on: the bytes below 0x20, the double
    quote, the backslash and the characters <, > and & are escaped, an
    invalid UTF-8 byte becomes the escape of U+FFFD, U+2028 and U+2029 are
    written as escapes, every other byte is copied. *)
Module json.

Definition hex (n : N) : ascii :=
  match String.get (N.to_nat n) "0123456789abcdef" with
  | Some c => c
  | None => "0"%char
  end.

Definition between (lo hi x : N) : bool := ((lo <=? x) && (x <=? hi))%N.

Definition continuation (c : ascii) : bool :=
  between 128 191 (N_of_ascii c).

(** [utf8.DecodeRuneInString] on a string that starts with the byte [b]
    (at least 0x80) followed by [rest]: the width of the rune, or [0] when
    the bytes are not a valid encoding ([RuneError], width 1). *)
Definition rune_width (b : N) (rest : string) : nat :=
  let second lo hi :=
    match rest with
    | String c _ => between lo hi (N_of_ascii c)
    | EmptyString => false
    end in
  let tail n :=
    match rest with
    | String _ r => forallb continuation (list_ascii_of_string (String.substring 0 n r))
                    && (n <=? String.length r)%nat
    | EmptyString => false
    end in
  if between 194 223 b then (if second 128%N 191%N then 2 else 0)%nat
  else if (b =? 224)%N then
    (if second 160%N 191%N && tail 1%nat then 3 else 0)%nat
  else if between 225 236 b then
    (if second 128%N 191%N && tail 1%nat then 3 else 0)%nat
  else if (b =? 237)%N then
    (if second 128%N 159%N && tail 1%nat then 3 else 0)%nat
  else if between 238 239 b then
    (if second 128%N 191%N && tail 1%nat then 3 else 0)%nat
  else if (b =? 240)%N then
    (if second 144%N 191%N && tail 2%nat then 4 else 0)%nat
  else if between 241 243 b then
    (if second 128%N 191%N && tail 2%nat then 4 else 0)%nat
  else if (b =? 244)%N then
    (if second 128%N 143%N && tail 2%nat then 4 else 0)%nat
  else 0%nat.

(** The escape of one byte below 0x80 that is not HTML safe. *)
Definition escape (c : ascii) : string :=
  let b := N_of_ascii c in
  if (b =? 92)%N || (b =? 34)%N then String "\"%char (String c "")
  else if (b =? 10)%N then "\n"
  else if (b =? 13)%N then "\r"
  else if (b =? 9)%N then "\t"
  else "\u00" ++ String (hex (N.shiftr b 4)) (String (hex (N.land b 15)) "").

(** [htmlSafeSet] *)
Definition htmlSafe (b : N) : bool :=
  (32 <=? b)%N && negb ((b =? 34) || (b =? 38) || (b =? 60) || (b =? 62)
                        || (b =? 92))%N.

(** The loop of [encodeState.string].  [copy] counts the bytes of the
    current rune still to be copied, [drop] those still to be left out
    (the rest of an escaped U+2028 or U+2029). *)
Fixpoint encode_from (copy drop : nat) (s : string) : string :=
  match s with
  | EmptyString => EmptyString
  | String c rest =>
      match copy, drop with
      | S n, _ => String c (encode_from n drop rest)
      | O, S n => encode_from O n rest
      | O, O =>
          let b := N_of_ascii c in
          if (b <? 128)%N then
            if htmlSafe b then String c (encode_from O O rest)
            else escape c ++ encode_from O O rest
          else
            match rune_width b rest with
            | O => "\ufffd" ++ encode_from O O rest
            | S w =>
                if (b =? 226)%N
                   && (String.substring 0 2 rest =? String "128" (String "168" ""))%string
                then "\u2028" ++ encode_from O w rest
                else if (b =? 226)%N
                   && (String.substring 0 2 rest =? String "128" (String "169" ""))%string
                then "\u2029" ++ encode_from O w rest
                else String c (encode_from w O rest)
            end
      end
  end.

Definition quote : string := String "034" "".

(** [json.Marshal(v)] for a string [v]. *)
Definition Marshal_string (v : string) : bytes :=
  quote ++ encode_from 0 0 v ++ quote.

End json.

(** [func (p *EnrollType) UnmarshalJSON(b []byte) error]: the receiver is
    passed in and its value after the call is returned with the error. *)
Definition UnmarshalJSON (p : EnrollType) (b : bytes)
  : EnrollType * option error :=
  let s := b in
  if (String.length s <=? 2)%nat then
    (p, Some (errors.New "invalid enroll type received"))
  else
    let s := String.substring 1 (String.length s - 1 - 1) s in
    match mapEnrollType !! s with
    | None =>
        (p, Some (ErrorString
                    ("value of '" ++ s ++
                     "' is an invalid enrollment type, supported type is 'PERMANENT'")))
    | Some v => (v, None)
    end.

(** [func (p EnrollType) MarshalJSON() ([]byte, error)]; the nil slice is the
    empty byte sequence. *)
Definition MarshalJSON (p : EnrollType) : bytes * option error :=
  match reverseMapEnrollType !! p with
  | None => ("", Some (errors.New "cannot serialize unknown type"))
  | Some v => (json.Marshal_string v, None)
  end.

(** The known set, as the specification calls it: the wire tokens are the
    keys of the canonical table, the values are what the table maps to. *)
Definition known_token (s : string) : Prop := s ∈ dom mapEnrollType.

Definition known_type (v : EnrollType) : Prop :=
  ∃ k : string, mapEnrollType !! k = Some v.

(** The unquoted token in the words of the specification: the bytes with the
    first and the last character removed. *)
Definition unquoted (b : bytes) : string :=
  string_of_list_ascii (removelast (List.tl (list_ascii_of_string b))).

(** ** Requests, responses and the command *)

Section Command.

(** Go values the command hands on without looking inside them, and the
    collaborators it calls: they belong to the libraries and to the rest
    of the package. *)
Context {GoMap : Type}.       (* map[string]interface{} *)
Context {GoSlice : Type}.     (* []interface{} *)
Context {Time : Type}.        (* time.Time *)
Context {ReadCloser : Type}.  (* io.ReadCloser, the body of a response *)
Context {World : Type}.       (* what the transport and the body act on *)

(** [json.Marshal] on a [map[string]interface{}]; it fails on values that
    have no JSON form. *)
Variable Marshal_map : GoMap -> bytes * option error.

Record Metadata : Type := {
  Local : GoMap;
  UserProvided : GoMap
}.

Record EnrollRequest : Type := {
  EnrollmentToken : string;   (* json:"-" *)
  Type_ : EnrollType;         (* json:"type" *)
  SharedID : string;          (* json:"sharedId,omitempty" *)
  Metadata_ : Metadata        (* json:"metadata" *)
}.

(** [func (e *EnrollRequest) Validate() error] *)
Definition EnrollRequest_Validate (e : EnrollRequest) : option error :=
  let err : option error := None in
  let err :=
    if (String.length (EnrollmentToken e) =? 0)%nat
    then Some (multierror.Append err [errors.New "missing enrollment token"])
    else err in
  let err :=
    if (String.length (Type_ e) =? 0)%nat
    then Some (multierror.Append err [errors.New "missing enrollment type"])
    else err in
  err.

Record EnrollItemResponse : Type := {
  ID : string;
  Active : bool;
  PolicyID : string;
  ItemType : EnrollType;      (* field Type, json:"type" *)
  EnrolledAt : Time;
  UserProvidedMetadata : GoMap;
  LocalMetadata : GoMap;
  Actions : GoSlice;
  AccessToken : string
}.

Record EnrollResponse : Type := {
  Action : string;
  Success : bool;
  Item : EnrollItemResponse
}.

(** [func (e *EnrollResponse) Validate() error] *)
Definition EnrollResponse_Validate (e : EnrollResponse) : option error :=
  let err : option error := None in
  let err :=
    if (String.length (ID (Item e)) =? 0)%nat
    then Some (multierror.Append err [errors.New "missing ID"])
    else err in
  let err :=
    if (String.length (ItemType (Item e)) =? 0)%nat
    then Some (multierror.Append err [errors.New "missing enrollment type"])
    else err in
  let err :=
    if (String.length (AccessToken (Item e)) =? 0)%nat
    then Some (multierror.Append err [errors.New "access token is missing"])
    else err in
  err.

(** *** [json.Marshal] of a request

    The encoder follows the struct tags: [EnrollmentToken] is tagged ["-"]
    and is skipped, [Type] is written by its [MarshalJSON] (whose error
    comes back inside a [MarshalerError]), [SharedID] is left out when
    empty, and the two maps of the metadata are written by the library.
    The bytes [MarshalJSON] returns are a string literal of the encoder
    itself, which the compaction pass of the library leaves as they are. *)
Definition field (name : string) : string :=
  json.quote ++ name ++ json.quote ++ ":".

Definition Marshal_Metadata (m : Metadata) : bytes * option error :=
  match Marshal_map (Local m) with
  | (_, Some err) => ("", Some err)
  | (l, None) =>
      match Marshal_map (UserProvided m) with
      | (_, Some err) => ("", Some err)
      | (u, None) =>
          ("{" ++ field "local" ++ l ++ ","
               ++ field "userProvided" ++ u ++ "}", None)
      end
  end.

Definition Marshal_EnrollRequest (r : EnrollRequest)
  : bytes * option error :=
  match MarshalJSON (Type_ r) with
  | (_, Some err) => ("", Some (MarshalerError err))
  | (t, None) =>
      let shared :=
        if (String.length (SharedID r) =? 0)%nat then ""
        else "," ++ field "sharedId" ++ json.Marshal_string (SharedID r) in
      match Marshal_Metadata (Metadata_ r) with
      | (_, Some err) => ("", Some err)
      | (m, None) =>
          ("{" ++ field "type" ++ t ++ shared ++ ","
               ++ field "metadata" ++ m ++ "}", None)
      end
  end.

(** *** The transport and the calls made on it *)

Record Response : Type := {
  StatusCode : Z;
  Body : ReadCloser
}.

Definition StatusOK : Z := 200.

Definition Values : Type := option (gmap string (list string)).
Definition Header : Type := gmap string (list string).

(** The calls that leave the command, in the order they are made. *)
Inductive Call : Type :=
| CallSend (method path : string) (params : Values) (headers : Header)
           (body : bytes)
| CallExtract (body : ReadCloser)
| CallDecode (body : ReadCloser)
| CallClose (body : ReadCloser).

Record State : Type := {
  world : World;
  calls : list Call
}.

(** Modelled from the spec: the interface [clienter] is declared outside
    this file; section 6 gives the transport contract, "a capability
    accepting (method, path, query parameters, headers, body) and
    returning a status code plus a readable, closable body, or failing
    with a transport error".  The call in [Execute] shows the Go shape: a
    response pointer and an error, each of which may be nil. *)
Record clienter : Type := {
  Send : string -> string -> Values -> Header -> bytes ->
         World -> (option Response * option error) * World
}.

(** [extract], the package's reader of an error body; the library's
    decoder into a fresh [EnrollResponse], which runs [UnmarshalJSON] on the
    type of the item; [Close] of a body. *)
Variable extract : ReadCloser -> World -> option error * World.
Variable Decode : ReadCloser -> World -> (EnrollResponse * option error) * World.
Variable Close : ReadCloser -> World -> World.

Record EnrollCmd : Type := {
  client : clienter
}.

Definition NewEnrollCmd (c : clienter) : EnrollCmd := {| client := c |}.

(** A computation over the state; [None] is a run-time panic. *)
Definition M (A : Type) : Type := State -> option A * State.

#[local] Instance M_ret : MRet M := fun A a st => (Some a, st).
#[local] Instance M_bind : MBind M := fun A B f m st =>
  match m st with
  | (Some a, st') => f a st'
  | (None, st') => (None, st')
  end.

Definition panic {A : Type} : M A := fun st => (None, st).

Definition log (c : Call) (st : State) : list Call := calls st ++ [c].

Definition call_Send (c : clienter) (method path : string)
    (params : Values) (headers : Header) (body : bytes)
  : M (option Response * option error) := fun st =>
  let '(res, w) := Send c method path params headers body (world st) in
  (Some res,
   {| world := w; calls := log (CallSend method path params headers body) st |}).

Definition call_extract (body : ReadCloser) : M (option error) := fun st =>
  let '(res, w) := extract body (world st) in
  (Some res, {| world := w; calls := log (CallExtract body) st |}).

Definition call_Decode (body : ReadCloser)
  : M (EnrollResponse * option error) := fun st =>
  let '(res, w) := Decode body (world st) in
  (Some res, {| world := w; calls := log (CallDecode body) st |}).

Definition call_Close (body : ReadCloser) : M unit := fun st =>
  (Some tt,
   {| world := Close body (world st); calls := log (CallClose body) st |}).

(** [defer d] around [m]: [d] runs when [m] is over, whether it returned a
    result or panicked. *)
Definition defer {A : Type} (d : M unit) (m : M A) : M A := fun st =>
  let '(res, st') := m st in
  match d st' with
  | (Some _, st'') => (res, st'')
  | (None, st'') => (None, st'')
  end.

(** [EnrollCmd.Execute]: the request is passed by value, the result is the
    pair of a nilable response and a nilable error. *)
Definition Execute (e : EnrollCmd) (r : EnrollRequest)
  : M (option EnrollResponse * option error) :=
  let p := "/api/fleet/agents/enroll" in
  let key := "kbn-fleet-enrollment-token" in
  match EnrollRequest_Validate r with
  | Some err => mret (None, Some err)
  | None =>
      let headers : Header := {[ key := [EnrollmentToken r] ]} in
      match Marshal_EnrollRequest r with
      | (_, Some err) =>
          mret (None, Some (errors.Wrap err "fail to encode the enrollment request"))
      | (b, None) =>
          '(resp, err) ← call_Send (client e) "POST" p None headers b;
          match err with
          | Some err => mret (None, Some err)
          | None =>
              match resp with
              | None => panic   (* resp.Body on a nil response *)
              | Some resp =>
                  defer (call_Close (Body resp))
                    (if bool_decide (StatusCode resp ≠ StatusOK) then
                       err ← call_extract (Body resp);
                       mret (None, err)
                     else
                       '(enrollResponse, err) ← call_Decode (Body resp);
                       match err with
                       | Some err =>
                           mret (None, Some (errors.Wrap err "fail to decode enrollment response"))
                       | None =>
                           match EnrollResponse_Validate enrollResponse with
                           | Some err => mret (None, Some err)
                           | None => mret (Some enrollResponse, None)
                           end
                       end)
              end
          end
      end
  end.

End Command.

Arguments Metadata : clear implicits.
Arguments EnrollRequest : clear implicits.
Arguments EnrollItemResponse : clear implicits.
Arguments EnrollResponse : clear implicits.
Arguments Response : clear implicits.
Arguments Call : clear implicits.
Arguments State : clear implicits.
Arguments clienter : clear implicits.
Arguments EnrollCmd : clear implicits.
Arguments M : clear implicits.

(** The violations of a request and of a response, each check on its own,
    and the aggregate of a list of violations: no error for none, one
    [multierror] holding all of them otherwise. *)
Definition aggregate (violations : list error) : option error :=
  match violations with
  | [] => None
  | _ :: _ => Some (MultiError violations)
  end.

Definition violation (missing : bool) (msg : string) : list error :=
  if missing then [errors.New msg] else [].

Definition is_empty (s : string) : bool := bool_decide (s = "").

Definition is_send {ReadCloser : Type} (c : Call ReadCloser) : bool :=
  match c with
  | CallSend _ _ _ _ _ => true
  | _ => false
  end.

(** The one request [Execute] sends: method, path, no query parameters, the
    credential [token] under the header of the enrollment token, and the
    body [b]. *)
Definition sent {ReadCloser : Type} (token : string) (b : bytes)
  : Call ReadCloser :=
  CallSend "POST" "/api/fleet/agents/enroll" None
           {[ "kbn-fleet-enrollment-token" := [token] ]} b.

(** ** A small instance to run the command on

    The maps are all nil, a body is its text, the world counts the requests
    sent.  [refusing] answers every request with status 500; [accepting]
    answers with status 200. *)
Module Sample.

Definition Marshal_map (m : unit) : bytes * option error := ("null", None).

Definition extract (body : string) (w : nat) : option error * nat :=
  (Some (ForeignError body), w).

Definition item : EnrollItemResponse unit unit unit :=
  {| ID := "a4937110-e53e-11e9-934f-47a8e38a522c"; Active := true;
     PolicyID := "default"; ItemType := PermanentEnroll; EnrolledAt := tt;
     UserProvidedMetadata := tt; LocalMetadata := tt; Actions := tt;
     AccessToken := "ACCESS_TOKEN" |}.

Definition Decode (body : string) (w : nat)
  : (EnrollResponse unit unit unit * option error) * nat :=
  ({| Action := "created"; Success := true; Item := item |}, None, w).

Definition Close (body : string) (w : nat) : nat := w.

Definition answering (status : Z) : clienter string nat :=
  {| Send := fun method path params headers body w =>
       (Some {| StatusCode := status; Body := "answer" |}, None, S w) |}.

Definition refusing : EnrollCmd string nat := NewEnrollCmd (answering 500).
Definition accepting : EnrollCmd string nat := NewEnrollCmd (answering 200).

Definition request (token : string) (type : EnrollType)
  : EnrollRequest unit :=
  {| EnrollmentToken := token; Type_ := type; SharedID := "";
     Metadata_ := {| Local := tt; UserProvided := tt |} |}.

Definition start : State string nat := {| world := 0%nat; calls := [] |}.

Definition run (e : EnrollCmd string nat) (r : EnrollRequest unit) :=
  Execute Marshal_map extract Decode Close e r start.

End Sample.

(** ** Notions used to state further properties *)

(** A table in which no two keys carry the same value: ranging over it
    in any order gives the same inverse. *)
Definition injective_table (m : gmap string EnrollType) : Prop :=
  ∀ (k1 k2 : string) (v : EnrollType),
    m !! k1 = Some v → m !! k2 = Some v → k1 = k2.

(** The bytes the string encoder copies as they are: ASCII, not a control
    character, and none of the double quote, the backslash, <, > and &. *)
Definition plain (s : string) : bool :=
  forallb (fun c => (N_of_ascii c <? 128)%N && json.htmlSafe (N_of_ascii c))
          (list_ascii_of_string s).

(** Further collaborators for the sample instance: a transport that fails,
    one that returns neither a response nor an error, a decoder that fails
    and one that yields an item without access token. *)
Module Cases.

Definition failing : EnrollCmd string nat :=
  NewEnrollCmd
    {| Send := fun method path params headers body w =>
         (None, Some (ForeignError "connection refused"), S w) |}.

Definition silent : EnrollCmd string nat :=
  NewEnrollCmd
    {| Send := fun method path params headers body w => (None, None, S w) |}.

Definition Decode_failing (body : string) (w : nat)
  : (EnrollResponse unit unit unit * option error) * nat :=
  ({| Action := ""; Success := false;
      Item := {| ID := ""; Active := false; PolicyID := "";
                 ItemType := ""; EnrolledAt := tt;
                 UserProvidedMetadata := tt; LocalMetadata := tt;
                 Actions := tt; AccessToken := "" |} |},
   Some (ForeignError "unexpected end of JSON input"), w).

Definition Decode_no_token (body : string) (w : nat)
  : (EnrollResponse unit unit unit * option error) * nat :=
  ({| Action := "created"; Success := true;
      Item := {| ID := "a4937110-e53e-11e9-934f-47a8e38a522c";
                 Active := true; PolicyID := "default";
                 ItemType := PermanentEnroll; EnrolledAt := tt;
                 UserProvidedMetadata := tt; LocalMetadata := tt;
                 Actions := tt; AccessToken := "" |} |},
   None, w).

Definition extract_nothing (body : string) (w : nat) : option error * nat :=
  (None, w).

Definition Marshal_map_failing (m : unit) : bytes * option error :=
  ("", Some (ForeignError "json: unsupported type")).

End Cases.

(** * Properties *)

(** ** The codec *)

Section Codec.

Lemma mapEnrollType_lookup (s : string) (v : EnrollType) :
  mapEnrollType !! s = Some v ↔ s = "PERMANENT" ∧ v = PermanentEnroll.
Proof.
  unfold mapEnrollType. rewrite lookup_singleton_Some.
  split; intros [<- <-]; done.
Qed.

Lemma mapEnrollType_None (s : string) :
  mapEnrollType !! s = None ↔ s ≠ "PERMANENT".
Proof.
  unfold mapEnrollType. rewrite lookup_singleton_None. split; congruence.
Qed.

(** The inverse table [init] computes has the one entry of the canonical
    table, turned round. *)
Lemma reverseMapEnrollType_eq :
  reverseMapEnrollType = {[ PermanentEnroll := "PERMANENT" ]}.
Proof.
  unfold reverseMapEnrollType, init, mapEnrollType.
  rewrite map_fold_singleton. apply insert_empty.
Qed.

Lemma known_type_permanent (v : EnrollType) :
  known_type v ↔ v = PermanentEnroll.
Proof.
  unfold known_type. split.
  - intros [k Hk]. apply mapEnrollType_lookup in Hk. tauto.
  - intros ->. exists "PERMANENT". by apply mapEnrollType_lookup.
Qed.

Lemma known_token_permanent (s : string) :
  known_token s ↔ s = "PERMANENT".
Proof.
  unfold known_token. rewrite elem_of_dom. split.
  - intros [v Hv]. apply mapEnrollType_lookup in Hv. tauto.
  - intros ->. exists PermanentEnroll. by apply mapEnrollType_lookup.
Qed.

Lemma substring_removelast (r : string) :
  String.substring 0 (String.length r - 1) r
  = string_of_list_ascii (removelast (list_ascii_of_string r)).
Proof.
  induction r as [|c r IH]; [reflexivity|].
  destruct r as [|d r]; [reflexivity|].
  replace (String.length (String c (String d r)) - 1)%nat
    with (S (String.length (String d r) - 1)) by (cbn [String.length]; lia).
  change (String.substring 0 (S ?n) (String c ?t))
    with (String c (String.substring 0 n t)).
  rewrite IH. reflexivity.
Qed.

(** The slice [s[1 : len(s)-1]] of the code is the unquoted token. *)
Lemma slice_unquoted (b : bytes) :
  String.substring 1 (String.length b - 1 - 1) b = unquoted b.
Proof.
  unfold unquoted. destruct b as [|c r]; [reflexivity|].
  cbn [String.length String.substring list_ascii_of_string List.tl].
  rewrite Nat.sub_succ, Nat.sub_0_r. apply substring_removelast.
Qed.

Lemma MarshalJSON_known :
  MarshalJSON PermanentEnroll
  = (json.quote ++ "PERMANENT" ++ json.quote, None).
Proof.
  unfold MarshalJSON. rewrite reverseMapEnrollType_eq, lookup_singleton_eq.
  reflexivity.
Qed.

Lemma MarshalJSON_unknown (p : EnrollType) :
  p ≠ PermanentEnroll →
  MarshalJSON p = ("", Some (errors.New "cannot serialize unknown type")).
Proof.
  intros Hp. unfold MarshalJSON.
  rewrite reverseMapEnrollType_eq, lookup_singleton_ne; congruence.
Qed.

(** What [UnmarshalJSON] does, by cases on the length and on the token. *)
Lemma UnmarshalJSON_short (p : EnrollType) (b : bytes) :
  (String.length b ≤ 2)%nat →
  UnmarshalJSON p b = (p, Some (errors.New "invalid enroll type received")).
Proof.
  intros Hlen. unfold UnmarshalJSON.
  destruct (Nat.leb_spec (String.length b) 2); [reflexivity | lia].
Qed.

Lemma UnmarshalJSON_long (p : EnrollType) (b : bytes) :
  (2 < String.length b)%nat →
  UnmarshalJSON p b =
    match mapEnrollType !! unquoted b with
    | None =>
        (p, Some (ErrorString
                    ("value of '" ++ unquoted b ++
                     "' is an invalid enrollment type, supported type is 'PERMANENT'")))
    | Some v => (v, None)
    end.
Proof.
  intros Hlen. unfold UnmarshalJSON.
  destruct (Nat.leb_spec (String.length b) 2); [lia|].
  rewrite slice_unquoted. reflexivity.
Qed.

Lemma unquoted_length (b : bytes) :
  String.length (unquoted b) = (String.length b - 2)%nat.
Proof.
  rewrite <- slice_unquoted.
  destruct b as [|c r]; [reflexivity|].
  cbn [String.length String.substring].
  rewrite Nat.sub_succ, Nat.sub_0_r.
  assert (H : ∀ (n : nat) (t : string), (n ≤ String.length t)%nat →
              String.length (String.substring 0 n t) = n).
  { clear. induction n as [|n IH]; intros [|d t] Hn; cbn in *;
      try reflexivity; try lia.
    f_equal. apply IH. lia. }
  rewrite H by lia. lia.
Qed.

Lemma unquoted_short (b : bytes) :
  (String.length b ≤ 2)%nat → ¬ known_token (unquoted b).
Proof.
  intros Hlen Hk. apply known_token_permanent in Hk.
  pose proof (unquoted_length b) as Hl. rewrite Hk in Hl.
  cbn in Hl. lia.
Qed.

(** C4: a value of the known set (PERMANENT) is encoded by [MarshalJSON]
    without error, and [UnmarshalJSON] on the bytes produced succeeds and
    stores the same value in the receiver, whatever the receiver held:
    decode (encode v) = v. *)
Theorem EnrollType_round_trip (v p : EnrollType) :
  known_type v →
  ∃ b : bytes, MarshalJSON v = (b, None) ∧ UnmarshalJSON p b = (v, None).
Proof.
  intros Hv. apply known_type_permanent in Hv. subst v.
  eexists. split; [apply MarshalJSON_known|].
  rewrite UnmarshalJSON_long by (vm_compute; lia).
  reflexivity.
Qed.

(** C5: [UnmarshalJSON] returns an error on every input of length at most
    2 and on every input whose unquoted token is not in the known set; it
    returns no error exactly when the unquoted token is in the known
    set. *)
Theorem UnmarshalJSON_error_iff (p : EnrollType) (b : bytes) :
  ((String.length b ≤ 2)%nat → is_Some (UnmarshalJSON p b).2)
  ∧ (¬ known_token (unquoted b) → is_Some (UnmarshalJSON p b).2)
  ∧ ((UnmarshalJSON p b).2 = None ↔ known_token (unquoted b)).
Proof.
  assert (Hiff : (UnmarshalJSON p b).2 = None ↔ known_token (unquoted b)).
  { destruct (Nat.le_gt_cases (String.length b) 2) as [Hlen|Hlen].
    - rewrite UnmarshalJSON_short by done. split; [done|].
      intros Hk. by apply unquoted_short in Hk.
    - rewrite UnmarshalJSON_long by done.
      unfold known_token. rewrite elem_of_dom.
      destruct (mapEnrollType !! unquoted b) as [v|] eqn:Hv; cbn.
      + split; eauto.
      + split; [done|]. by intros [? ?]. }
  split; [|split; [|exact Hiff]].
  - intros Hlen. rewrite UnmarshalJSON_short by done. by eexists.
  - intros Hk. destruct ((UnmarshalJSON p b).2); [by eexists|].
    exfalso. apply Hk, Hiff. reflexivity.
Qed.

(** C6: [MarshalJSON] fails on every value that is not in the canonical
    table, that is on every value other than PERMANENT, and succeeds on
    every value of the table. *)
Theorem MarshalJSON_error_iff (p : EnrollType) :
  (known_type p ↔ p = PermanentEnroll)
  ∧ (¬ known_type p →
     MarshalJSON p = ("", Some (errors.New "cannot serialize unknown type")))
  ∧ (known_type p → ∃ b : bytes, MarshalJSON p = (b, None)).
Proof.
  split; [apply known_type_permanent|]. split.
  - intros Hp. apply MarshalJSON_unknown.
    by rewrite <- known_type_permanent.
  - intros Hp. apply known_type_permanent in Hp. subst p.
    eexists. apply MarshalJSON_known.
Qed.

(** C9: the first and the last byte are never looked at.  On every input of
    length at least 3 whose bytes between the first and the last are
    PERMANENT, decoding succeeds and stores [PermanentEnroll], whatever the
    two delimiters are. *)
Theorem UnmarshalJSON_any_delimiters (p : EnrollType) (b : bytes) :
  (3 ≤ String.length b)%nat →
  unquoted b = "PERMANENT" →
  UnmarshalJSON p b = (PermanentEnroll, None).
Proof.
  intros Hlen Htok. rewrite UnmarshalJSON_long by lia.
  rewrite Htok. reflexivity.
Qed.

(** C10: when [UnmarshalJSON] returns an error, the receiver holds the
    value it held before the call. *)
Theorem UnmarshalJSON_failure_keeps_receiver (p : EnrollType) (b : bytes) :
  is_Some (UnmarshalJSON p b).2 → (UnmarshalJSON p b).1 = p.
Proof.
  destruct (Nat.le_gt_cases (String.length b) 2) as [Hlen|Hlen].
  - by rewrite UnmarshalJSON_short.
  - rewrite UnmarshalJSON_long by done.
    destruct (mapEnrollType !! unquoted b); [|done].
    cbn. by intros [? ?].
Qed.

End Codec.

(** ** Validation *)

Section Validation.

Context {GoMap GoSlice Time : Type}.

Lemma length_zero (s : string) :
  (String.length s =? 0)%nat = is_empty s.
Proof.
  unfold is_empty. destruct s; cbn [String.length Nat.eqb].
  - by rewrite bool_decide_eq_true_2.
  - by rewrite bool_decide_eq_false_2.
Qed.

Lemma is_empty_true (s : string) : is_empty s = true ↔ s = "".
Proof. apply bool_decide_eq_true. Qed.

Lemma is_empty_false (s : string) : is_empty s = false ↔ s ≠ "".
Proof. apply bool_decide_eq_false. Qed.

(** Each check adds its violation, whatever the other checks found. *)
Lemma EnrollRequest_Validate_aggregate (e : EnrollRequest GoMap) :
  EnrollRequest_Validate e
  = aggregate
      (violation (is_empty (EnrollmentToken e)) "missing enrollment token"
       ++ violation (is_empty (Type_ e)) "missing enrollment type").
Proof.
  unfold EnrollRequest_Validate. rewrite !length_zero.
  by destruct (is_empty (EnrollmentToken e)), (is_empty (Type_ e)).
Qed.

Lemma EnrollResponse_Validate_aggregate
    (e : EnrollResponse GoMap GoSlice Time) :
  EnrollResponse_Validate e
  = aggregate
      (violation (is_empty (ID (Item e))) "missing ID"
       ++ violation (is_empty (ItemType (Item e))) "missing enrollment type"
       ++ violation (is_empty (AccessToken (Item e)))
                    "access token is missing").
Proof.
  unfold EnrollResponse_Validate. rewrite !length_zero.
  by destruct (is_empty (ID (Item e))), (is_empty (ItemType (Item e))),
       (is_empty (AccessToken (Item e))).
Qed.

(** C7: [EnrollRequest.Validate] returns an error when the credential is
    empty and when the type is empty; when both are empty the aggregate
    holds both violations; it returns no error when both are set, whatever
    [SharedID] and [Metadata] are. *)
Theorem EnrollRequest_Validate_spec (e : EnrollRequest GoMap) :
  (EnrollmentToken e = "" → is_Some (EnrollRequest_Validate e))
  ∧ (Type_ e = "" → is_Some (EnrollRequest_Validate e))
  ∧ (EnrollmentToken e = "" → Type_ e = "" →
     EnrollRequest_Validate e
     = Some (MultiError [errors.New "missing enrollment token";
                         errors.New "missing enrollment type"]))
  ∧ (∀ (token : string) (type : EnrollType) (shared : string)
       (metadata : Metadata GoMap),
       token ≠ "" → type ≠ "" →
       EnrollRequest_Validate
         {| EnrollmentToken := token; Type_ := type; SharedID := shared;
            Metadata_ := metadata |} = None).
Proof.
  rewrite EnrollRequest_Validate_aggregate.
  repeat split.
  - intros ->. cbn. by destruct (is_empty (Type_ e)).
  - intros ->. cbn [is_empty]. by destruct (is_empty (EnrollmentToken e)).
  - by intros -> ->.
  - intros token type shared metadata Htoken Htype.
    rewrite EnrollRequest_Validate_aggregate. cbn.
    apply is_empty_false in Htoken, Htype. by rewrite Htoken, Htype.
Qed.

(** C8: [EnrollResponse.Validate] returns an error whenever the identifier,
    the type or the access token of the item is empty, each of the three
    checks adding its own violation to the aggregate, and it returns no
    error exactly when the three fields are all set. *)
Theorem EnrollResponse_Validate_spec
    (e : EnrollResponse GoMap GoSlice Time) :
  (ID (Item e) = "" → is_Some (EnrollResponse_Validate e))
  ∧ (ItemType (Item e) = "" → is_Some (EnrollResponse_Validate e))
  ∧ (AccessToken (Item e) = "" → is_Some (EnrollResponse_Validate e))
  ∧ EnrollResponse_Validate e
    = aggregate
        (violation (is_empty (ID (Item e))) "missing ID"
         ++ violation (is_empty (ItemType (Item e)))
                      "missing enrollment type"
         ++ violation (is_empty (AccessToken (Item e)))
                      "access token is missing")
  ∧ (EnrollResponse_Validate e = None
     ↔ ID (Item e) ≠ "" ∧ ItemType (Item e) ≠ ""
       ∧ AccessToken (Item e) ≠ "").
Proof.
  rewrite EnrollResponse_Validate_aggregate.
  rewrite <- !is_empty_false.
  split; [|split; [|split; [|split; [reflexivity|]]]].
  - intros ->. by cbn.
  - intros ->. by destruct (is_empty (ID (Item e))).
  - intros ->.
    by destruct (is_empty (ID (Item e))), (is_empty (ItemType (Item e))).
  - destruct (is_empty (ID (Item e))), (is_empty (ItemType (Item e))),
      (is_empty (AccessToken (Item e))); cbn; intuition congruence.
Qed.

End Validation.

(** ** The command *)

Section Execute.

Context {GoMap GoSlice Time ReadCloser World : Type}.
Variable Marshal_map : GoMap → bytes * option error.
Variable extract : ReadCloser → World → option error * World.
Variable Decode :
  ReadCloser → World →
  (EnrollResponse GoMap GoSlice Time * option error) * World.
Variable Close : ReadCloser → World → World.

#[local] Abbreviation Run := (Execute Marshal_map extract Decode Close).
#[local] Abbreviation Marshal := (Marshal_EnrollRequest Marshal_map).

(** The run of [Execute] once the request is valid and encoded: the
    transport is called once, with [sent], and no later call is a
    [Send]. *)
Lemma Execute_sends (e : EnrollCmd ReadCloser World)
    (r : EnrollRequest GoMap) (b : bytes) (st : State ReadCloser World) :
  EnrollRequest_Validate r = None →
  Marshal r = (b, None) →
  ∃ rest : list (Call ReadCloser),
    calls (Run e r st).2 = (calls st ++ sent (EnrollmentToken r) b :: rest)%list
    ∧ existsb is_send rest = false.
Proof.
  intros Hvalid Hbody. unfold Execute. rewrite Hvalid, Hbody.
  unfold mbind, M_bind, call_Send, log.
  destruct (Send _ _ _ _ _ _ _) as [[resp err] w].
  destruct err as [err|]; [exists []; split; reflexivity|].
  destruct resp as [resp|]; [|exists []; split; reflexivity].
  unfold defer, mbind, M_bind.
  case_bool_decide.
  - unfold call_extract, call_Close, log, mret, M_ret.
    destruct (extract _ _) as [err w'].
    exists [CallExtract (Body resp); CallClose (Body resp)].
    split; [|reflexivity].
    cbn [calls snd]. by rewrite <- !app_assoc.
  - unfold call_Decode, call_Close, log, mret, M_ret.
    destruct (Decode _ _) as [[resp' err] w'].
    exists [CallDecode (Body resp); CallClose (Body resp)].
    split; [|reflexivity].
    destruct err as [err|]; [|destruct (EnrollResponse_Validate resp')];
      cbn [calls snd]; by rewrite <- !app_assoc.
Qed.

(** C1: on a request that fails validation (empty credential or empty
    type) [Execute] returns the aggregated validation error and a nil
    response, and nothing is sent: the state, with its record of calls, is
    what it was, whatever the transport is. *)
Theorem Execute_invalid_request (e : EnrollCmd ReadCloser World)
    (r : EnrollRequest GoMap) (st : State ReadCloser World) :
  EnrollmentToken r = "" ∨ Type_ r = "" →
  is_Some (EnrollRequest_Validate r)
  ∧ Run e r st = (Some (None, EnrollRequest_Validate r), st)
  ∧ calls (Run e r st).2 = calls st
  ∧ ∀ e' : EnrollCmd ReadCloser World, Run e' r st = Run e r st.
Proof.
  intros Hinvalid.
  assert (Herr : is_Some (EnrollRequest_Validate r)).
  { rewrite EnrollRequest_Validate_aggregate.
    destruct Hinvalid as [-> | ->]; cbn [is_empty bool_decide].
    - by destruct (is_empty (Type_ r)).
    - by destruct (is_empty (EnrollmentToken r)). }
  assert (Hrun : ∀ e0 : EnrollCmd ReadCloser World,
             Run e0 r st = (Some (None, EnrollRequest_Validate r), st)).
  { intros e0. unfold Execute. destruct Herr as [err ->]. reflexivity. }
  split; [exact Herr|]. split; [apply Hrun|]. split.
  - by rewrite Hrun.
  - intros e'. by rewrite !Hrun.
Qed.

(** C2: on a valid request that has been encoded and sent, when the
    transport returns a response whose status code is not 200, [Execute]
    returns a nil response and the very error [extract] returns on the
    body of that response; the body is then closed. *)
Theorem Execute_non_OK (e : EnrollCmd ReadCloser World)
    (r : EnrollRequest GoMap) (b : bytes) (st : State ReadCloser World)
    (resp : Response ReadCloser) (w : World) :
  EnrollRequest_Validate r = None →
  Marshal r = (b, None) →
  Send (client e) "POST" "/api/fleet/agents/enroll" None
       {[ "kbn-fleet-enrollment-token" := [EnrollmentToken r] ]} b
       (world st) = (Some resp, None, w) →
  StatusCode resp ≠ StatusOK →
  Run e r st
  = (Some (None, (extract (Body resp) w).1),
     {| world := Close (Body resp) (extract (Body resp) w).2;
        calls := (calls st ++ [sent (EnrollmentToken r) b;
                               CallExtract (Body resp);
                               CallClose (Body resp)])%list |}).
Proof.
  intros Hvalid Hbody Hsend Hstatus.
  unfold Execute. rewrite Hvalid, Hbody.
  unfold mbind, M_bind, call_Send, log. rewrite Hsend.
  unfold defer, mbind, M_bind.
  rewrite bool_decide_eq_true_2 by done.
  unfold call_extract, call_Close, log, mret, M_ret.
  cbn [calls world].
  destruct (extract (Body resp) w) as [err w'].
  cbn [fst snd calls world]. rewrite <- !app_assoc.
  unfold sent. cbn [app]. reflexivity.
Qed.

(** C3: the credential is not part of the body.  Two valid requests that
    differ only in [EnrollmentToken] are encoded to the same result, and
    when that result is a body [b] each run sends one request, with that
    same body, whose header kbn-fleet-enrollment-token holds the
    credential of its own request; no other call to the transport
    follows. *)
Theorem credential_only_in_header (e : EnrollCmd ReadCloser World)
    (r1 r2 : EnrollRequest GoMap) (st : State ReadCloser World) :
  EnrollRequest_Validate r1 = None →
  EnrollRequest_Validate r2 = None →
  Type_ r1 = Type_ r2 →
  SharedID r1 = SharedID r2 →
  Metadata_ r1 = Metadata_ r2 →
  Marshal r1 = Marshal r2
  ∧ ∀ b : bytes, Marshal r1 = (b, None) →
      (∃ rest : list (Call ReadCloser),
          calls (Run e r1 st).2
          = (calls st ++ sent (EnrollmentToken r1) b :: rest)%list
          ∧ existsb is_send rest = false)
      ∧ (∃ rest : list (Call ReadCloser),
          calls (Run e r2 st).2
          = (calls st ++ sent (EnrollmentToken r2) b :: rest)%list
          ∧ existsb is_send rest = false).
Proof.
  intros Hvalid1 Hvalid2 Htype Hshared Hmeta.
  assert (Hsame : Marshal r1 = Marshal r2).
  { unfold Marshal_EnrollRequest. by rewrite Htype, Hshared, Hmeta. }
  split; [exact Hsame|].
  intros b Hb. split.
  - by apply Execute_sends.
  - apply Execute_sends; [done|]. by rewrite <- Hsame.
Qed.

End Execute.

(** ** The theorems at work on concrete inputs *)

(** The round trip of PERMANENT, from an empty receiver. *)
Lemma EnrollType_round_trip_PERMANENT :
  ∃ b : bytes,
    MarshalJSON PermanentEnroll = (b, None)
    ∧ UnmarshalJSON "" b = (PermanentEnroll, None).
Proof.
  apply (EnrollType_round_trip PermanentEnroll "").
  exists "PERMANENT". vm_compute. reflexivity.
Defined.

(** The input xPERMANENTx, which has no quotation mark, is decoded. *)
Lemma UnmarshalJSON_xPERMANENTx :
  UnmarshalJSON "" "xPERMANENTx" = (PermanentEnroll, None).
Proof.
  apply (UnmarshalJSON_any_delimiters "" "xPERMANENTx").
  - vm_compute. lia.
  - vm_compute. reflexivity.
Defined.

(** A receiver holding PERMANENT keeps it when an unknown token is
    refused. *)
Lemma UnmarshalJSON_refused_keeps_PERMANENT :
  (UnmarshalJSON PermanentEnroll "'TEMPORARY'").1 = PermanentEnroll.
Proof.
  apply (UnmarshalJSON_failure_keeps_receiver PermanentEnroll "'TEMPORARY'").
  vm_compute. eexists. reflexivity.
Defined.

(** A request without credential comes back with the violation and leaves
    the state as it was. *)
Lemma Execute_without_token :
  Sample.run Sample.accepting (Sample.request "" PermanentEnroll)
  = (Some (None, Some (MultiError [errors.New "missing enrollment token"])),
     Sample.start).
Proof.
  exact (proj1 (proj2
    (Execute_invalid_request Sample.Marshal_map Sample.extract Sample.Decode
       Sample.Close Sample.accepting (Sample.request "" PermanentEnroll)
       Sample.start (or_introl eq_refl)))).
Defined.

(** A refused request comes back with the error of [extract]. *)
Lemma Execute_refused :
  (Sample.run Sample.refusing (Sample.request "tok123" PermanentEnroll)).1
  = Some (None, Some (ForeignError "answer")).
Proof.
  unfold Sample.run.
  rewrite (Execute_non_OK Sample.Marshal_map Sample.extract Sample.Decode
             Sample.Close Sample.refusing
             (Sample.request "tok123" PermanentEnroll)
             (Marshal_EnrollRequest Sample.Marshal_map
                (Sample.request "tok123" PermanentEnroll)).1
             Sample.start
             {| StatusCode := 500; Body := "answer" |} 1%nat).
  - reflexivity.
  - vm_compute. reflexivity.
  - vm_compute. reflexivity.
  - vm_compute. reflexivity.
  - vm_compute. discriminate.
Defined.

(** Two credentials, one body. *)
Lemma Marshal_two_tokens :
  Marshal_EnrollRequest Sample.Marshal_map
    (Sample.request "tok123" PermanentEnroll)
  = Marshal_EnrollRequest Sample.Marshal_map
      (Sample.request "tok456" PermanentEnroll).
Proof.
  refine (proj1
    (credential_only_in_header Sample.Marshal_map Sample.extract
       Sample.Decode Sample.Close Sample.accepting
       (Sample.request "tok123" PermanentEnroll)
       (Sample.request "tok456" PermanentEnroll) Sample.start
       _ _ _ _ _)); vm_compute; reflexivity.
Defined.

(** The scenarios of the specification, run on the sample instance. *)

(** Credential tok123, type PERMANENT, empty metadata: the body carries the
    type, has no sharedId, and the credential is in the header alone. *)
Example scenario_request :
  Sample.run Sample.accepting (Sample.request "tok123" PermanentEnroll)
  = (Some (Some {| Action := "created"; Success := true;
                   Item := Sample.item |}, None),
     {| world := 1%nat;
        calls :=
          [sent "tok123"
             ("{" ++ field "type" ++ json.quote ++ "PERMANENT" ++ json.quote
                  ++ "," ++ field "metadata"
                  ++ "{" ++ field "local" ++ "null,"
                         ++ field "userProvided" ++ "null}}");
           CallDecode "answer"; CallClose "answer"] |}).
Proof. vm_compute. reflexivity. Qed.

(** A type that is set but not in the table stops the command before the
    transport is reached. *)
Example scenario_unknown_type :
  Sample.run Sample.accepting (Sample.request "tok123" "TEMPORARY")
  = (Some (None,
           Some (errors.Wrap
                   (MarshalerError
                      (errors.New "cannot serialize unknown type"))
                   "fail to encode the enrollment request")),
     Sample.start).
Proof. vm_compute. reflexivity. Qed.

(** The escapes of the string encoder. *)
Example Marshal_string_escapes :
  json.Marshal_string
    ("a<b" ++ String "010" (String "226" (String "128" (String "168"
       (String "195" (String "169" (String "255" "")))))))
  = json.quote ++ "a\u003cb\n\u2028" ++ String "195" (String "169" "")
      ++ "\ufffd" ++ json.quote.
Proof. vm_compute. reflexivity. Qed.


(** * Further properties of the code *)

(** ** The tables and the codec *)

Section Tables.

(** X1: The inverse table that [init] builds from a table without repeated
    values maps a value to a key exactly when the table maps that key to
    the value. *)
Theorem init_inverse (m : gmap string EnrollType) (k : string)
    (v : EnrollType) :
  injective_table m →
  init m !! v = Some k ↔ m !! k = Some v.
Proof.
  unfold init. revert k v.
  apply (map_fold_weak_ind
           (fun (r : gmap EnrollType string) (m : gmap string EnrollType) =>
              ∀ k v, injective_table m → r !! v = Some k ↔ m !! k = Some v)).
  - intros k v _. by rewrite !lookup_empty.
  - intros i x m' r Hfresh IH k v Hinj.
    assert (Hinj' : injective_table m').
    { intros k1 k2 v' H1 H2. apply (Hinj k1 k2 v').
      - rewrite lookup_insert_ne; [done|]. intros ->. congruence.
      - rewrite lookup_insert_ne; [done|]. intros ->. congruence. }
    destruct (decide (x = v)) as [->|Hxv].
    + rewrite lookup_insert_eq. split.
      * intros [= <-]. by rewrite lookup_insert_eq.
      * intros Hk. f_equal. apply (Hinj i k v); [|done].
        by rewrite lookup_insert_eq.
    + rewrite lookup_insert_ne by done. rewrite (IH k v Hinj').
      destruct (decide (i = k)) as [->|Hik].
      * rewrite lookup_insert_eq. split; [congruence|].
        intros [= ?]. done.
      * by rewrite lookup_insert_ne.
Qed.

End Tables.

Lemma init_inverse_mapEnrollType :
  reverseMapEnrollType !! PermanentEnroll = Some "PERMANENT"
  ↔ mapEnrollType !! "PERMANENT" = Some PermanentEnroll.
Proof.
  apply (init_inverse mapEnrollType "PERMANENT" PermanentEnroll).
  intros k1 k2 v H1 H2.
  apply mapEnrollType_lookup in H1, H2. destruct H1, H2. congruence.
Defined.

Section Decoding.

(** [UnmarshalJSON] succeeds exactly on the inputs whose unquoted token is
    PERMANENT, and then stores [PermanentEnroll]. *)
Lemma UnmarshalJSON_ok (p : EnrollType) (b : bytes) (v : EnrollType) :
  UnmarshalJSON p b = (v, None)
  ↔ unquoted b = "PERMANENT" ∧ v = PermanentEnroll.
Proof.
  destruct (Nat.le_gt_cases (String.length b) 2) as [Hlen|Hlen].
  - rewrite UnmarshalJSON_short by done. split; [done|].
    intros [Htok _]. pose proof (unquoted_length b) as Hl.
    rewrite Htok in Hl. cbn in Hl. lia.
  - rewrite UnmarshalJSON_long by done.
    destruct (mapEnrollType !! unquoted b) as [v'|] eqn:Hv.
    + apply mapEnrollType_lookup in Hv as [Htok ->].
      split; [intros [= <-]; done | intros [_ ->]; done].
    + apply mapEnrollType_None in Hv. split; [done | intros [? _]; done].
Qed.

Lemma unquoted_delimited (c d : ascii) (t : string) :
  unquoted (String c (t ++ String d "")) = t.
Proof.
  unfold unquoted. cbn [list_ascii_of_string List.tl].
  assert (Happ : list_ascii_of_string (t ++ String d "")
                 = (list_ascii_of_string t ++ [d])%list).
  { induction t as [|a t IH]; [reflexivity|].
    change (String a t ++ String d "") with (String a (t ++ String d "")).
    cbn [list_ascii_of_string]. by rewrite IH. }
  rewrite Happ, removelast_last. apply string_of_list_ascii_of_string.
Qed.

(** X2: A successful decoding followed by an encoding gives back the token
    between quotation marks: the value stored by [UnmarshalJSON] is always
    one that [MarshalJSON] accepts, and the two delimiters of the input come
    back as quotes. *)
Theorem UnmarshalJSON_then_MarshalJSON (p : EnrollType) (b : bytes)
    (v : EnrollType) :
  UnmarshalJSON p b = (v, None) →
  MarshalJSON v = (json.quote ++ unquoted b ++ json.quote, None).
Proof.
  intros Hok. apply UnmarshalJSON_ok in Hok as [-> ->].
  apply MarshalJSON_known.
Qed.

(** The string encoder copies plain bytes and starts every escape with a
    backslash, so an output made of plain bytes is the input itself. *)
Lemma escape_backslash (c : ascii) :
  ∃ t : string, json.escape c = String "\"%char t.
Proof.
  unfold json.escape.
  repeat match goal with
         | |- context [if ?x then _ else _] => destruct x
         end; eexists; reflexivity.
Qed.

Lemma plain_cons (c : ascii) (s : string) :
  plain (String c s) = true →
  (N_of_ascii c <? 128)%N = true ∧ json.htmlSafe (N_of_ascii c) = true
  ∧ plain s = true.
Proof.
  unfold plain. cbn [list_ascii_of_string forallb].
  rewrite !andb_true_iff. tauto.
Qed.

Lemma plain_no_backslash (t x : string) :
  plain (String "\"%char t ++ x) = false.
Proof. reflexivity. Qed.

Lemma encode_plain_inv (s out : string) :
  plain out = true → json.encode_from 0 0 s = out → s = out.
Proof.
  revert out. induction s as [|c rest IH]; intros out Hplain Henc.
  - done.
  - cbn [json.encode_from] in Henc. cbv zeta in Henc.
    destruct (N_of_ascii c <? 128)%N eqn:Hascii.
    + destruct (json.htmlSafe (N_of_ascii c)) eqn:Hsafe.
      * subst out. apply plain_cons in Hplain as (_ & _ & Hplain).
        f_equal. by apply IH.
      * destruct (escape_backslash c) as [t Ht]. rewrite Ht in Henc.
        subst out. by rewrite plain_no_backslash in Hplain.
    + destruct (json.rune_width (N_of_ascii c) rest) as [|w].
      * subst out. by rewrite plain_no_backslash in Hplain.
      * repeat match type of Henc with
               | context [if ?x then _ else _] => destruct x
               end; subst out.
        -- by rewrite plain_no_backslash in Hplain.
        -- by rewrite plain_no_backslash in Hplain.
        -- apply plain_cons in Hplain as (Hc & _). congruence.
Qed.

(** X3: The JSON encoding of a Go string is accepted by [UnmarshalJSON] exactly
    when the string is PERMANENT: the decoder compares the bytes between the
    delimiters as they are, and no other string is encoded to them. *)
Theorem UnmarshalJSON_Marshal_string (p : EnrollType) (s : string) :
  UnmarshalJSON p (json.Marshal_string s) = (PermanentEnroll, None)
  ↔ s = "PERMANENT".
Proof.
  rewrite UnmarshalJSON_ok.
  change (json.Marshal_string s)
    with (String "034" (json.encode_from 0 0 s ++ String "034" "")).
  rewrite unquoted_delimited. split.
  - intros [Henc _]. by apply encode_plain_inv.
  - intros ->. done.
Qed.

End Decoding.

Lemma UnmarshalJSON_then_MarshalJSON_apostrophes :
  MarshalJSON PermanentEnroll
  = (json.quote ++ unquoted "'PERMANENT'" ++ json.quote, None).
Proof.
  apply (UnmarshalJSON_then_MarshalJSON "" "'PERMANENT'" PermanentEnroll).
  vm_compute. reflexivity.
Defined.

(** ** The paths of the command *)

Section Paths.

Context {GoMap GoSlice Time ReadCloser World : Type}.
Variable Marshal_map : GoMap → bytes * option error.
Variable extract : ReadCloser → World → option error * World.
Variable Decode :
  ReadCloser → World →
  (EnrollResponse GoMap GoSlice Time * option error) * World.
Variable Close : ReadCloser → World → World.

#[local] Abbreviation Run := (Execute Marshal_map extract Decode Close).
#[local] Abbreviation Marshal := (Marshal_EnrollRequest Marshal_map).
#[local] Abbreviation SendTo e r b st :=
  (Send (client e) "POST" "/api/fleet/agents/enroll" None
        {[ "kbn-fleet-enrollment-token" := [EnrollmentToken r] ]} b
        (world st)).

(** [Execute] with the monad unfolded and the record of calls written
    out, one branch per exit of the function. *)
Lemma Execute_paths (e : EnrollCmd ReadCloser World)
    (r : EnrollRequest GoMap) (st : State ReadCloser World) :
  Run e r st =
  match EnrollRequest_Validate r with
  | Some err => (Some (None, Some err), st)
  | None =>
    match Marshal r with
    | (_, Some err) =>
        (Some (None,
               Some (errors.Wrap err "fail to encode the enrollment request")),
         st)
    | (b, None) =>
      let token := EnrollmentToken r in
      match SendTo e r b st with
      | (_, Some err, w) =>
          (Some (None, Some err),
           {| world := w; calls := (calls st ++ [sent token b])%list |})
      | (None, None, w) =>
          (None, {| world := w; calls := (calls st ++ [sent token b])%list |})
      | (Some resp, None, w) =>
        if bool_decide (StatusCode resp ≠ StatusOK) then
          (Some (None, (extract (Body resp) w).1),
           {| world := Close (Body resp) (extract (Body resp) w).2;
              calls := (calls st ++ [sent token b; CallExtract (Body resp);
                                     CallClose (Body resp)])%list |})
        else
          let decoded := (Decode (Body resp) w).1 in
          (Some match decoded.2 with
                | Some err =>
                    (None,
                     Some (errors.Wrap err "fail to decode enrollment response"))
                | None =>
                    match EnrollResponse_Validate decoded.1 with
                    | Some err => (None, Some err)
                    | None => (Some decoded.1, None)
                    end
                end,
           {| world := Close (Body resp) (Decode (Body resp) w).2;
              calls := (calls st ++ [sent token b; CallDecode (Body resp);
                                     CallClose (Body resp)])%list |})
      end
    end
  end.
Proof.
  unfold Execute.
  destruct (EnrollRequest_Validate r) as [err|]; [reflexivity|].
  destruct (Marshal r) as [b [err|]]; [reflexivity|].
  unfold mbind, M_bind, call_Send, log.
  destruct (Send _ _ _ _ _ _ _) as [[resp err] w].
  destruct err as [err|]; [destruct resp; reflexivity|].
  destruct resp as [resp|]; [|reflexivity].
  unfold defer, mbind, M_bind.
  case_bool_decide.
  - unfold call_extract, call_Close, log, mret, M_ret. cbn [calls world].
    destruct (extract (Body resp) w) as [err w'].
    cbn [fst snd calls world]. rewrite <- !app_assoc. reflexivity.
  - unfold call_Decode, call_Close, log, mret, M_ret. cbn [calls world].
    destruct (Decode (Body resp) w) as [[resp' err] w'].
    cbn [fst snd calls world].
    destruct err as [err|]; [|destruct (EnrollResponse_Validate resp')];
      cbn [fst snd calls world]; rewrite <- !app_assoc; reflexivity.
Qed.

Lemma valid_request (r : EnrollRequest GoMap) :
  EnrollRequest_Validate r = None
  ↔ EnrollmentToken r ≠ "" ∧ Type_ r ≠ "".
Proof.
  rewrite EnrollRequest_Validate_aggregate, <- !is_empty_false.
  destruct (is_empty (EnrollmentToken r)), (is_empty (Type_ r)); cbn;
    intuition congruence.
Qed.

Lemma Marshal_PERMANENT (r : EnrollRequest GoMap) (b : bytes) :
  Marshal r = (b, None) → Type_ r = PermanentEnroll.
Proof.
  unfold Marshal_EnrollRequest.
  destruct (decide (Type_ r = PermanentEnroll)) as [Htype|Htype]; [done|].
  rewrite (MarshalJSON_unknown _ Htype). discriminate.
Qed.

(** X4: The encoder accepts a request exactly when its type is PERMANENT and
    its two metadata maps can be encoded.  The body then holds the type,
    the shared identifier unless it is empty, and the metadata, and nothing
    of the credential. *)
Theorem Marshal_EnrollRequest_ok (r : EnrollRequest GoMap) (b : bytes) :
  Marshal r = (b, None)
  ↔ Type_ r = PermanentEnroll
    ∧ ∃ l u : bytes,
        Marshal_map (Local (Metadata_ r)) = (l, None)
        ∧ Marshal_map (UserProvided (Metadata_ r)) = (u, None)
        ∧ b = "{" ++ field "type"
                  ++ (json.quote ++ "PERMANENT" ++ json.quote)
                  ++ (if is_empty (SharedID r) then ""
                      else "," ++ field "sharedId"
                               ++ json.Marshal_string (SharedID r))
                  ++ "," ++ field "metadata"
                  ++ ("{" ++ field "local" ++ l ++ ","
                          ++ field "userProvided" ++ u ++ "}")
                  ++ "}".
Proof.
  unfold Marshal_EnrollRequest, Marshal_Metadata. rewrite length_zero.
  destruct (decide (Type_ r = PermanentEnroll)) as [Htype|Htype].
  - rewrite Htype, MarshalJSON_known.
    destruct (Marshal_map (Local (Metadata_ r))) as [l [errl|]].
    { split; [discriminate|]. intros (_ & l' & u' & [=] & _). }
    destruct (Marshal_map (UserProvided (Metadata_ r))) as [u [erru|]].
    { split; [discriminate|]. intros (_ & l' & u' & _ & [=] & _). }
    split.
    + intros [= <-]. split; [reflexivity|]. exists l, u. auto.
    + intros (_ & l' & u' & [= <-] & [= <-] & ->). reflexivity.
  - rewrite (MarshalJSON_unknown _ Htype).
    split; [discriminate|]. intros [? _]. contradiction.
Qed.

(** X5: A failure of the encoder is returned wrapped, and the transport is not
    reached: the state and its record of calls are what they were. *)
Theorem Execute_encoding_failure (e : EnrollCmd ReadCloser World)
    (r : EnrollRequest GoMap) (st : State ReadCloser World)
    (b : bytes) (err : error) :
  EnrollRequest_Validate r = None →
  Marshal r = (b, Some err) →
  Run e r st
  = (Some (None,
           Some (errors.Wrap err "fail to encode the enrollment request")),
     st).
Proof.
  intros Hvalid Hbody. rewrite Execute_paths, Hvalid, Hbody. reflexivity.
Qed.

(** X6: Validation accepts every type that is not empty, the encoder only
    PERMANENT: a request with a credential and another type is refused by
    the encoder, before anything is sent. *)
Theorem Execute_unknown_type (e : EnrollCmd ReadCloser World)
    (r : EnrollRequest GoMap) (st : State ReadCloser World) :
  EnrollmentToken r ≠ "" →
  Type_ r ≠ "" →
  Type_ r ≠ PermanentEnroll →
  EnrollRequest_Validate r = None
  ∧ Run e r st
    = (Some (None,
             Some (errors.Wrap
                     (MarshalerError
                        (errors.New "cannot serialize unknown type"))
                     "fail to encode the enrollment request")),
       st).
Proof.
  intros Htoken Hset Htype.
  assert (Hvalid : EnrollRequest_Validate r = None)
    by (apply valid_request; auto).
  split; [exact Hvalid|].
  rewrite Execute_paths, Hvalid. unfold Marshal_EnrollRequest.
  rewrite (MarshalJSON_unknown _ Htype). reflexivity.
Qed.

(** X7: An error of the transport is returned as it is.  Nothing is read and
    nothing is closed, also when a response came with the error. *)
Theorem Execute_transport_error (e : EnrollCmd ReadCloser World)
    (r : EnrollRequest GoMap) (b : bytes) (st : State ReadCloser World)
    (resp : option (Response ReadCloser)) (err : error) (w : World) :
  EnrollRequest_Validate r = None →
  Marshal r = (b, None) →
  SendTo e r b st = (resp, Some err, w) →
  Run e r st
  = (Some (None, Some err),
     {| world := w;
        calls := (calls st ++ [sent (EnrollmentToken r) b])%list |}).
Proof.
  intros Hvalid Hbody Hsend.
  rewrite Execute_paths, Hvalid, Hbody. cbv zeta. rewrite Hsend.
  destruct resp; reflexivity.
Qed.

(** X8: Status 200, a body that decodes and a response that passes validation:
    [Execute] returns the decoded response and no error, and the body is
    closed after it has been decoded. *)
Theorem Execute_OK (e : EnrollCmd ReadCloser World)
    (r : EnrollRequest GoMap) (b : bytes) (st : State ReadCloser World)
    (resp : Response ReadCloser) (w w' : World)
    (er : EnrollResponse GoMap GoSlice Time) :
  EnrollRequest_Validate r = None →
  Marshal r = (b, None) →
  SendTo e r b st = (Some resp, None, w) →
  StatusCode resp = StatusOK →
  Decode (Body resp) w = (er, None, w') →
  EnrollResponse_Validate er = None →
  Run e r st
  = (Some (Some er, None),
     {| world := Close (Body resp) w';
        calls := (calls st ++ [sent (EnrollmentToken r) b;
                               CallDecode (Body resp);
                               CallClose (Body resp)])%list |}).
Proof.
  intros Hvalid Hbody Hsend Hstatus Hdecode Hresp.
  rewrite Execute_paths, Hvalid, Hbody. cbv zeta. rewrite Hsend.
  rewrite bool_decide_eq_false_2 by (intros H; exact (H Hstatus)).
  rewrite Hdecode. cbn [fst snd]. rewrite Hresp. reflexivity.
Qed.

(** X9: Status 200 and a body the decoder refuses: the error of the decoder is
    returned wrapped, without a response, and the body is closed. *)
Theorem Execute_decode_failure (e : EnrollCmd ReadCloser World)
    (r : EnrollRequest GoMap) (b : bytes) (st : State ReadCloser World)
    (resp : Response ReadCloser) (w w' : World)
    (er : EnrollResponse GoMap GoSlice Time) (err : error) :
  EnrollRequest_Validate r = None →
  Marshal r = (b, None) →
  SendTo e r b st = (Some resp, None, w) →
  StatusCode resp = StatusOK →
  Decode (Body resp) w = (er, Some err, w') →
  Run e r st
  = (Some (None,
           Some (errors.Wrap err "fail to decode enrollment response")),
     {| world := Close (Body resp) w';
        calls := (calls st ++ [sent (EnrollmentToken r) b;
                               CallDecode (Body resp);
                               CallClose (Body resp)])%list |}).
Proof.
  intros Hvalid Hbody Hsend Hstatus Hdecode.
  rewrite Execute_paths, Hvalid, Hbody. cbv zeta. rewrite Hsend.
  rewrite bool_decide_eq_false_2 by (intros H; exact (H Hstatus)).
  rewrite Hdecode. reflexivity.
Qed.

(** X10: Status 200 and a decoded response that lacks the identifier, the type
    or the access token: the aggregate of [Validate] is returned, the
    decoded response is not, and the body is closed. *)
Theorem Execute_invalid_response (e : EnrollCmd ReadCloser World)
    (r : EnrollRequest GoMap) (b : bytes) (st : State ReadCloser World)
    (resp : Response ReadCloser) (w w' : World)
    (er : EnrollResponse GoMap GoSlice Time) :
  EnrollRequest_Validate r = None →
  Marshal r = (b, None) →
  SendTo e r b st = (Some resp, None, w) →
  StatusCode resp = StatusOK →
  Decode (Body resp) w = (er, None, w') →
  ID (Item er) = "" ∨ ItemType (Item er) = "" ∨ AccessToken (Item er) = "" →
  is_Some (EnrollResponse_Validate er)
  ∧ Run e r st
    = (Some (None, EnrollResponse_Validate er),
       {| world := Close (Body resp) w';
          calls := (calls st ++ [sent (EnrollmentToken r) b;
                                 CallDecode (Body resp);
                                 CallClose (Body resp)])%list |}).
Proof.
  intros Hvalid Hbody Hsend Hstatus Hdecode Hmissing.
  assert (Herr : is_Some (EnrollResponse_Validate er)).
  { rewrite EnrollResponse_Validate_aggregate.
    destruct Hmissing as [-> | [-> | ->]]; cbn [is_empty bool_decide].
    - by cbn.
    - by destruct (is_empty (ID (Item er))).
    - by destruct (is_empty (ID (Item er))),
           (is_empty (ItemType (Item er))). }
  split; [exact Herr|].
  rewrite Execute_paths, Hvalid, Hbody. cbv zeta. rewrite Hsend.
  rewrite bool_decide_eq_false_2 by (intros H; exact (H Hstatus)).
  rewrite Hdecode. cbn [fst snd].
  destruct Herr as [err ->]. reflexivity.
Qed.

(** X11: Whatever the collaborators do, a run adds to the record of calls
    nothing, or the one request, or the request followed by one reading of
    the body of the response (by [extract] or by the decoder) and by the
    closing of that same body.  So the transport is called at most once, a
    body that was read is closed, and it is closed last. *)
Theorem Execute_calls (e : EnrollCmd ReadCloser World)
    (r : EnrollRequest GoMap) (st : State ReadCloser World) :
  ∃ trace : list (Call ReadCloser),
    calls (Run e r st).2 = (calls st ++ trace)%list
    ∧ (trace = []
       ∨ ∃ b : bytes,
           trace = [sent (EnrollmentToken r) b]
           ∨ ∃ body : ReadCloser,
               trace = [sent (EnrollmentToken r) b; CallExtract body;
                        CallClose body]
               ∨ trace = [sent (EnrollmentToken r) b; CallDecode body;
                          CallClose body]).
Proof.
  rewrite Execute_paths.
  destruct (EnrollRequest_Validate r) as [err|].
  { exists []. split; [by rewrite app_nil_r | by left]. }
  destruct (Marshal r) as [b [err|]].
  { exists []. split; [by rewrite app_nil_r | by left]. }
  cbv zeta.
  destruct (Send _ _ _ _ _ _ _) as [[resp err] w].
  destruct resp as [resp|], err as [err|];
    try (eexists; split; [reflexivity|]; right; exists b; left; reflexivity).
  case_bool_decide.
  - eexists. split; [reflexivity|]. right. exists b. right.
    exists (Body resp). left. reflexivity.
  - eexists. split; [reflexivity|]. right. exists b. right.
    exists (Body resp). right. reflexivity.
Qed.

(** X12: No partial success: when [Execute] returns a response, it returns no
    error with it, the response has an identifier, a type and an access
    token, and the request had a credential and the type PERMANENT. *)
Theorem Execute_response_validated (e : EnrollCmd ReadCloser World)
    (r : EnrollRequest GoMap) (st : State ReadCloser World)
    (er : EnrollResponse GoMap GoSlice Time) (err : option error) :
  (Run e r st).1 = Some (Some er, err) →
  err = None
  ∧ ID (Item er) ≠ "" ∧ ItemType (Item er) ≠ ""
  ∧ AccessToken (Item er) ≠ ""
  ∧ EnrollmentToken r ≠ "" ∧ Type_ r = PermanentEnroll.
Proof.
  rewrite Execute_paths.
  destruct (EnrollRequest_Validate r) as [verr|] eqn:Hvalid;
    [cbn [fst]; intros [=]|].
  destruct (Marshal r) as [b [merr|]] eqn:Hbody; [cbn [fst]; intros [=]|].
  cbv zeta.
  destruct (Send _ _ _ _ _ _ _) as [[resp serr] w].
  destruct resp as [resp|], serr as [serr|];
    try (cbn [fst]; intros H; discriminate H).
  case_bool_decide; [cbn [fst]; intros H'; discriminate H'|].
  cbn [fst].
  destruct (Decode (Body resp) w) as [[er' derr] w']. cbn [fst snd].
  destruct derr as [derr|]; [intros H'; discriminate H'|].
  destruct (EnrollResponse_Validate er') as [verr|] eqn:Hresp;
    [intros H'; discriminate H'|].
  intros [= -> <-].
  rewrite EnrollResponse_Validate_aggregate in Hresp.
  apply valid_request in Hvalid as [Htoken _].
  apply Marshal_PERMANENT in Hbody as Htype.
  rewrite <- !is_empty_false. apply is_empty_false in Htoken.
  destruct (is_empty (ID (Item er))), (is_empty (ItemType (Item er))),
    (is_empty (AccessToken (Item er))); try discriminate Hresp.
  repeat split; assumption.
Qed.

(** X13: [Execute] panics in one case only: the request was valid and encoded,
    and the transport returned neither a response nor an error. *)
Theorem Execute_panics_iff (e : EnrollCmd ReadCloser World)
    (r : EnrollRequest GoMap) (st : State ReadCloser World) :
  (Run e r st).1 = None
  ↔ EnrollRequest_Validate r = None
    ∧ ∃ (b : bytes) (w : World),
        Marshal r = (b, None) ∧ SendTo e r b st = (None, None, w).
Proof.
  rewrite Execute_paths.
  destruct (EnrollRequest_Validate r) as [verr|].
  { cbn [fst]. split; [discriminate | intros [[=] _]]. }
  destruct (Marshal r) as [b [merr|]].
  { cbn [fst]. split; [discriminate | intros (_ & ? & ? & [=] & _)]. }
  cbv zeta.
  destruct (Send _ _ _ _ _ _ _) as [[resp serr] w] eqn:Hsend.
  assert (Hinv : ∀ (b' : bytes) (w' : World),
             (b, @None error) = (b', None) →
             SendTo e r b' st = (None, None, w') →
             resp = None ∧ serr = None).
  { intros b' w' [= <-] Hsend'. rewrite Hsend in Hsend'.
    by injection Hsend' as -> -> _. }
  destruct resp as [resp|], serr as [serr|]; cbn [fst].
  - split; [discriminate|]. intros (_ & b' & w' & Hb & Hs).
    by destruct (Hinv b' w' Hb Hs).
  - case_bool_decide; cbn [fst].
    + split; [discriminate|]. intros (_ & b' & w' & Hb & Hs).
      by destruct (Hinv b' w' Hb Hs).
    + split; [discriminate|]. intros (_ & b' & w' & Hb & Hs).
      by destruct (Hinv b' w' Hb Hs).
  - split; [discriminate|]. intros (_ & b' & w' & Hb & Hs).
    by destruct (Hinv b' w' Hb Hs).
  - split; [|reflexivity]. intros _. split; [reflexivity|].
    exists b, w. split; [reflexivity | exact Hsend].
Qed.


(** X15: The transport is reached only for a request that has a credential and
    the type PERMANENT, and the body it is given is the encoding of that
    request: a run that adds a call at all adds, first, the request with
    that body. *)
Theorem Execute_sends_only_valid (e : EnrollCmd ReadCloser World)
    (r : EnrollRequest GoMap) (st : State ReadCloser World) :
  calls (Run e r st).2 ≠ calls st →
  EnrollmentToken r ≠ "" ∧ Type_ r = PermanentEnroll
  ∧ ∃ (b : bytes) (rest : list (Call ReadCloser)),
      Marshal r = (b, None)
      ∧ calls (Run e r st).2
        = (calls st ++ sent (EnrollmentToken r) b :: rest)%list.
Proof.
  rewrite Execute_paths.
  destruct (EnrollRequest_Validate r) as [verr|] eqn:Hvalid.
  { intros H. contradiction H. reflexivity. }
  destruct (Marshal r) as [b [merr|]] eqn:Hbody.
  { intros H. contradiction H. reflexivity. }
  intros _.
  apply valid_request in Hvalid as [Htoken _].
  pose proof (Marshal_PERMANENT r b Hbody) as Htype.
  split; [exact Htoken|]. split; [exact Htype|].
  exists b. cbv zeta.
  destruct (Send _ _ _ _ _ _ _) as [[resp serr] w].
  destruct resp as [resp|], serr as [serr|];
    try (eexists; split; reflexivity).
  case_bool_decide; eexists; split; reflexivity.
Qed.

End Paths.

(** ** The paths on the sample instance *)

Lemma Execute_encoding_failure_metadata :
  Execute Cases.Marshal_map_failing Sample.extract Sample.Decode Sample.Close
    Sample.accepting (Sample.request "tok123" PermanentEnroll) Sample.start
  = (Some (None,
           Some (errors.Wrap (ForeignError "json: unsupported type")
                   "fail to encode the enrollment request")),
     Sample.start).
Proof.
  apply (Execute_encoding_failure Cases.Marshal_map_failing Sample.extract
           Sample.Decode Sample.Close Sample.accepting
           (Sample.request "tok123" PermanentEnroll) Sample.start "").
  - vm_compute. reflexivity.
  - vm_compute. reflexivity.
Defined.

Lemma Execute_unknown_type_TEMPORARY :
  EnrollRequest_Validate (Sample.request "tok123" "TEMPORARY") = None
  ∧ Sample.run Sample.accepting (Sample.request "tok123" "TEMPORARY")
    = (Some (None,
             Some (errors.Wrap
                     (MarshalerError
                        (errors.New "cannot serialize unknown type"))
                     "fail to encode the enrollment request")),
       Sample.start).
Proof.
  apply (Execute_unknown_type Sample.Marshal_map Sample.extract Sample.Decode
           Sample.Close Sample.accepting
           (Sample.request "tok123" "TEMPORARY") Sample.start);
    vm_compute; discriminate.
Defined.

Lemma Execute_transport_error_refused :
  (Sample.run Cases.failing (Sample.request "tok123" PermanentEnroll)).1
  = Some (None, Some (ForeignError "connection refused")).
Proof.
  unfold Sample.run.
  rewrite (Execute_transport_error Sample.Marshal_map Sample.extract
             Sample.Decode Sample.Close Cases.failing
             (Sample.request "tok123" PermanentEnroll)
             (Marshal_EnrollRequest Sample.Marshal_map
                (Sample.request "tok123" PermanentEnroll)).1
             Sample.start None (ForeignError "connection refused") 1%nat).
  - reflexivity.
  - vm_compute. reflexivity.
  - vm_compute. reflexivity.
  - vm_compute. reflexivity.
Defined.

Lemma Execute_OK_accepted :
  (Sample.run Sample.accepting (Sample.request "tok123" PermanentEnroll)).1
  = Some (Some {| Action := "created"; Success := true;
                  Item := Sample.item |}, None).
Proof.
  unfold Sample.run.
  rewrite (Execute_OK Sample.Marshal_map Sample.extract Sample.Decode
             Sample.Close Sample.accepting
             (Sample.request "tok123" PermanentEnroll)
             (Marshal_EnrollRequest Sample.Marshal_map
                (Sample.request "tok123" PermanentEnroll)).1
             Sample.start {| StatusCode := 200; Body := "answer" |}
             1%nat 1%nat
             {| Action := "created"; Success := true;
                Item := Sample.item |}).
  - reflexivity.
  - vm_compute. reflexivity.
  - vm_compute. reflexivity.
  - vm_compute. reflexivity.
  - vm_compute. reflexivity.
  - vm_compute. reflexivity.
  - vm_compute. reflexivity.
Defined.

Lemma Execute_decode_failure_truncated :
  (Execute Sample.Marshal_map Sample.extract Cases.Decode_failing
     Sample.Close Sample.accepting
     (Sample.request "tok123" PermanentEnroll) Sample.start).1
  = Some (None,
          Some (errors.Wrap (ForeignError "unexpected end of JSON input")
                  "fail to decode enrollment response")).
Proof.
  rewrite (Execute_decode_failure Sample.Marshal_map Sample.extract
             Cases.Decode_failing Sample.Close Sample.accepting
             (Sample.request "tok123" PermanentEnroll)
             (Marshal_EnrollRequest Sample.Marshal_map
                (Sample.request "tok123" PermanentEnroll)).1
             Sample.start {| StatusCode := 200; Body := "answer" |}
             1%nat 1%nat (Cases.Decode_failing "answer" 1%nat).1.1
             (ForeignError "unexpected end of JSON input")).
  - reflexivity.
  - vm_compute. reflexivity.
  - vm_compute. reflexivity.
  - vm_compute. reflexivity.
  - vm_compute. reflexivity.
  - vm_compute. reflexivity.
Defined.

Lemma Execute_invalid_response_no_token :
  (Execute Sample.Marshal_map Sample.extract Cases.Decode_no_token
     Sample.Close Sample.accepting
     (Sample.request "tok123" PermanentEnroll) Sample.start).1
  = Some (None,
          Some (MultiError [errors.New "access token is missing"])).
Proof.
  rewrite (proj2
    (Execute_invalid_response Sample.Marshal_map Sample.extract
       Cases.Decode_no_token Sample.Close Sample.accepting
       (Sample.request "tok123" PermanentEnroll)
       (Marshal_EnrollRequest Sample.Marshal_map
          (Sample.request "tok123" PermanentEnroll)).1
       Sample.start {| StatusCode := 200; Body := "answer" |}
       1%nat 1%nat (Cases.Decode_no_token "answer" 1%nat).1.1
       eq_refl eq_refl eq_refl eq_refl eq_refl
       (or_intror (or_intror eq_refl)))).
  reflexivity.
Defined.

Lemma Execute_response_validated_accepted :
  @None error = None
  ∧ ID Sample.item ≠ "" ∧ ItemType Sample.item ≠ ""
  ∧ AccessToken Sample.item ≠ ""
  ∧ "tok123" ≠ "" ∧ PermanentEnroll = PermanentEnroll.
Proof.
  apply (Execute_response_validated Sample.Marshal_map Sample.extract
           Sample.Decode Sample.Close Sample.accepting
           (Sample.request "tok123" PermanentEnroll) Sample.start
           {| Action := "created"; Success := true; Item := Sample.item |}
           None).
  vm_compute. reflexivity.
Defined.

(** The two rare exits do occur: a transport that returns nothing makes
    [Execute] panic, and an [extract] that returns no error makes it return
    neither response nor error. *)
Example Execute_panics_silent :
  (Sample.run Cases.silent (Sample.request "tok123" PermanentEnroll)).1
  = None.
Proof. vm_compute. reflexivity. Qed.

Example Execute_nothing_refusing :
  (Execute Sample.Marshal_map Cases.extract_nothing Sample.Decode
     Sample.Close Sample.refusing
     (Sample.request "tok123" PermanentEnroll) Sample.start).1
  = Some (None, None).
Proof. vm_compute. reflexivity. Qed.

Lemma Execute_sends_only_valid_accepted :
  "tok123" ≠ "" ∧ PermanentEnroll = PermanentEnroll
  ∧ ∃ (b : bytes) (rest : list (Call string)),
      Marshal_EnrollRequest Sample.Marshal_map
        (Sample.request "tok123" PermanentEnroll) = (b, None)
      ∧ calls (Sample.run Sample.accepting
                 (Sample.request "tok123" PermanentEnroll)).2
        = (calls Sample.start ++ sent "tok123" b :: rest)%list.
Proof.
  apply (Execute_sends_only_valid Sample.Marshal_map Sample.extract
           Sample.Decode Sample.Close Sample.accepting
           (Sample.request "tok123" PermanentEnroll) Sample.start).
  vm_compute. discriminate.
Defined.
